(** * A PD controller for the UUV mission: model and verified properties

    This development embeds [src/uuv_mission/control.py] in Rocq and proves
    the properties of its specification against the embedding.

    - Python's [float] is IEEE 754 binary64.  It is modelled by the Standard
      Library's executable specification of binary floating point
      ([spec_float] with precision 53 and maximal exponent 1024), so signed
      zeros, infinities, NaN, rounding and overflow are all those of the
      interpreter.
    - Python's [/] on floats raises [ZeroDivisionError] when the divisor
      compares equal to zero; every other float operation used by the
      controller returns a float (possibly infinite or NaN).
    - A method is a computation in a small state-and-exception monad over the
      object's fields: it yields either a value or a raised exception,
      together with the object as the method left it. *)

From Stdlib Require Import ZArith Bool List.
From Stdlib Require Import Floats.SpecFloat.
Import ListNotations.

Set Implicit Arguments.

(** ** Python floats *)

Module PyFloat.

Definition float : Type := spec_float.

Definition prec : Z := 53.
Definition emax : Z := 1024.

Definition add : float -> float -> float := SFadd prec emax.
Definition sub : float -> float -> float := SFsub prec emax.
Definition mul : float -> float -> float := SFmul prec emax.

(** The quotient the hardware computes, used once the divisor is known not
    to be zero. *)
Definition div : float -> float -> float := SFdiv prec emax.

(** Python's [==] on floats: [0.0 == -0.0], and NaN equals nothing. *)
Definition eqb : float -> float -> bool := SFeqb.

Definition zero : float := S754_zero false.
Definition neg_zero : float := S754_zero true.
Definition inf : float := S754_infinity false.
Definition nan : float := S754_nan.

(** [float(n)] for an integer [n] (exact for the small integers used
    below). *)
Definition of_Z (n : Z) : float := binary_normalize prec emax n 0 false.

(** The float a decimal literal [n/d] denotes: the correctly rounded
    quotient of two exactly representable integers. *)
Definition of_ratio (n d : Z) : float := div (of_Z n) (of_Z d).

(** [math.isnan] and [math.isfinite]. *)
Definition isnan (x : float) : bool :=
  match x with S754_nan => true | _ => false end.

Definition isfinite (x : float) : bool :=
  match x with
  | S754_zero _ | S754_finite _ _ _ => true
  | S754_infinity _ | S754_nan => false
  end.

(** A float that stands for a real number: neither an infinity nor NaN. *)
Definition real (x : float) : Prop := isfinite x = true.

(** Two floats are the same number: they compare equal with [==] (the sign
    of a zero is not observable through [==]), or both are NaN. *)
Definition same (x y : float) : bool :=
  eqb x y || (isnan x && isnan y).

End PyFloat.

Import PyFloat.

Declare Scope pyfloat_scope.
Delimit Scope pyfloat_scope with py.
Bind Scope pyfloat_scope with float.
Infix "+" := add : pyfloat_scope.
Infix "-" := sub : pyfloat_scope.
Infix "*" := mul : pyfloat_scope.
Infix "==" := eqb (at level 70, no associativity) : pyfloat_scope.

(** ** Exceptions and results *)

Inductive exn : Type :=
| ZeroDivisionError.

Inductive result (A : Type) : Type :=
| Return (a : A)
| Raise (e : exn).

Arguments Return {A} a.
Arguments Raise {A} e.

Definition returned {A : Type} (r : result A) : bool :=
  match r with Return _ => true | Raise _ => false end.

(** [a / b] in Python: [float_div] raises when [b == 0.0] (either zero). *)
Definition truediv (a b : float) : result float :=
  if (b == zero)%py then Raise ZeroDivisionError else Return (div a b).

(** ** The controller object *)

Record PDController : Type := {
  kp : float;
  kd : float;
  dt : float;
  _last_error : option float
}.

(** ** Methods as stateful, fallible computations *)

Definition M (A : Type) : Type := PDController -> result A * PDController.

Definition ret {A : Type} (a : A) : M A := fun self => (Return a, self).

Definition raise {A : Type} (e : exn) : M A := fun self => (Raise e, self).

(** Sequencing: an exception stops the method and leaves the object as it
    was when the exception was raised. *)
Definition bind {A B : Type} (m : M A) (f : A -> M B) : M B :=
  fun self =>
    match m self with
    | (Return a, self') => f a self'
    | (Raise e, self') => (Raise e, self')
    end.

Definition lift {A : Type} (r : result A) : M A :=
  match r with Return a => ret a | Raise e => raise e end.

(** Reading an attribute of [self]. *)
Definition get {A : Type} (attr : PDController -> A) : M A :=
  fun self => (Return (attr self), self).

(** The assignment [self._last_error = v]. *)
Definition set_last_error (v : option float) : M unit :=
  fun self =>
    (Return tt,
     {| kp := kp self; kd := kd self; dt := dt self; _last_error := v |}).

Declare Scope method_scope.
Delimit Scope method_scope with method.
Notation "x <- m ;; k" := (bind m (fun x => k))
  (at level 61, m at next level, right associativity) : method_scope.
Notation "m ;; k" := (bind m (fun _ => k))
  (at level 61, right associativity) : method_scope.
Open Scope method_scope.

(** [float(x)] applied to a float returns it unchanged. *)
Definition to_float (x : float) : float := x.

(** [PDController.__init__]. *)
Definition __init__ (kp kd dt : float) : PDController :=
  {| kp := to_float kp; kd := to_float kd; dt := to_float dt;
     _last_error := None |}.

(** The default arguments [kp=0.15], [kd=0.6], [dt=1.0]. *)
Definition default_kp : float := Eval vm_compute in of_ratio 15 100.
Definition default_kd : float := Eval vm_compute in of_ratio 6 10.
Definition default_dt : float := Eval vm_compute in of_Z 1.

(** [PDController.control]. *)
Definition control (reference observation : float) : M float :=
  let error := (to_float reference - to_float observation)%py in
  last <- get _last_error ;;
  derivative <-
    match last with
    | None => ret zero
    | Some last_error =>
        step <- get dt ;;
        lift (truediv (error - last_error)%py step)
    end ;;
  k_p <- get kp ;;
  k_d <- get kd ;;
  let u := (k_p * error + k_d * derivative)%py in
  set_last_error (Some error) ;;
  ret (to_float u).

(** [PDController.reset]. *)
Definition reset : M unit :=
  set_last_error None.

(** ** Sequences of method calls

    A driver performs calls one after the other on the same object.  A call
    that raises leaves the object in the state it had reached; the driver may
    catch the exception and go on, so the model records every outcome. *)

Inductive call : Type :=
| Control (reference observation : float)
| Reset.

Inductive value : Type :=
| VFloat (x : float)
| VNone.

Definition invoke (c : call) : M value :=
  match c with
  | Control reference observation =>
      u <- control reference observation ;; ret (VFloat u)
  | Reset => reset ;; ret VNone
  end.

(** The outcomes of a sequence of calls and the final object. *)
Fixpoint drive (calls : list call) (self : PDController)
  : list (result value) * PDController :=
  match calls with
  | [] => ([], self)
  | c :: rest =>
      let (r, self') := invoke c self in
      let (rs, final) := drive rest self' in
      (r :: rs, final)
  end.

Definition outcomes (calls : list call) (self : PDController)
  : list (result value) := fst (drive calls self).

Definition after (calls : list call) (self : PDController)
  : PDController := snd (drive calls self).

(** The error a call computes. *)
Definition error_of (reference observation : float) : float :=
  (to_float reference - to_float observation)%py.

(** A call on which the reference equals the observation, both real. *)
Definition at_setpoint (c : call) : Prop :=
  match c with
  | Control reference observation =>
      real reference /\ (reference == observation)%py = true
  | Reset => True
  end.

(** The outcome of a call that returned a float comparing equal to [0.0];
    [reset] returns [None]. *)
Definition returns_zero (r : result value) : Prop :=
  match r with
  | Return (VFloat u) => (u == zero)%py = true
  | Return VNone => True
  | Raise _ => False
  end.

(** No call has been made since construction or since the last [reset]. *)
Definition no_call_since_clear (calls : list call) : Prop :=
  calls = [] \/ exists before, calls = before ++ [Reset].

(** Sample floats: [10.0], [2.0], [8.0], [-1.0], [1e308] and [-1e308]. *)
Definition neg_one : float := Eval vm_compute in of_Z (-1).
Definition f10 : float := Eval vm_compute in of_Z 10.
Definition f2 : float := Eval vm_compute in of_Z 2.
Definition f8 : float := Eval vm_compute in of_Z 8.
Definition huge : float := S754_finite false 5010420900022432 971.
Definition neg_huge : float := S754_finite true 5010420900022432 971.

(** The stored error, if any, is a zero. *)
Definition settled (self : PDController) : Prop :=
  match _last_error self with
  | None => True
  | Some last => (last == zero)%py = true
  end.

(** A controller with a zero timestep that has made one call. *)
Definition stalled : PDController :=
  after [Control f10 zero] (__init__ default_kp default_kd zero).

(** [-x] on floats. *)
Definition opp : float -> float := SFopp.

(** A [control] call, as opposed to a [reset]. *)
Definition is_control (c : call) : Prop :=
  match c with Control _ _ => True | Reset => False end.



(** [y] is [x] with the sign reversed; two zeros count as reversed whatever
    their signs, since [x - x] is [+0.0] in both orders. *)
Definition mirrored (x y : float) : Prop :=
  y = opp x \/ ((x == zero)%py = true /\ (y == zero)%py = true).

(** The same call with reference and observation exchanged. *)
Definition swap (c : call) : call :=
  match c with
  | Control reference observation => Control observation reference
  | Reset => Reset
  end.

(** Two outcomes that are alike, the returned actions being opposite
    numbers. *)
Definition opposite_outcomes (r r' : result value) : Prop :=
  match r, r' with
  | Return (VFloat u), Return (VFloat u') => same u' (opp u) = true
  | Return VNone, Return VNone => True
  | Raise e, Raise e' => e = e'
  | _, _ => False
  end.

(** Two controllers with the same gains and timestep whose stored errors, if
    any, are reversed. *)
Definition mirrored_state (self self' : PDController) : Prop :=
  kp self' = kp self /\ kd self' = kd self /\ dt self' = dt self /\
  match _last_error self, _last_error self' with
  | None, None => True
  | Some last, Some last' => mirrored last last'
  | _, _ => False
  end.

(** ** Facts about binary64 arithmetic *)

Lemma float_eqb_zero (x : float) :
  (x == zero)%py = match x with S754_zero _ => true | _ => false end.
Proof. destruct x as [s | s | | s m e]; try destruct s; reflexivity. Qed.

Lemma float_eqb_refl (x : float) : isnan x = false -> (x == x)%py = true.
Proof.
  destruct x as [s | s | | s m e]; intros H; try discriminate H.
  - reflexivity.
  - destruct s; reflexivity.
  - unfold eqb, SFeqb; simpl.
    rewrite Z.compare_refl, Pos.compare_cont_refl. destruct s; reflexivity.
Qed.

Lemma float_same_refl (x : float) : same x x = true.
Proof.
  unfold same. destruct (isnan x) eqn:N.
  - now rewrite orb_true_r.
  - now rewrite float_eqb_refl.
Qed.

(** Floats that compare equal, one of them finite and non-zero, are the same
    term. *)
Lemma float_eqb_finite (s : bool) (m : positive) (e : Z) (y : float) :
  (S754_finite s m e == y)%py = true -> y = S754_finite s m e.
Proof.
  unfold eqb, SFeqb. destruct y as [s' | s' | | s' m' e']; simpl.
  - destruct s; discriminate.
  - destruct s'; discriminate.
  - discriminate.
  - destruct s, s'; try discriminate;
      destruct (Z.compare e e') eqn:E; try discriminate;
      destruct (Pos.compare_cont Eq m m') eqn:P; try discriminate;
      intros _; apply Z.compare_eq in E; apply Pos.compare_eq in P;
      now subst.
Qed.

(** [x - x] is a zero for every real [x]; so is [x - y] when [x == y]. *)
Lemma float_sub_eq_zero (x y : float) :
  real x -> (x == y)%py = true -> ((x - y) == zero)%py = true.
Proof.
  intros R E. destruct x as [s | s | | s m e]; try discriminate R.
  - destruct y as [s' | s' | | s' m' e']; try (destruct s'; discriminate E);
      try discriminate E.
    destruct s, s'; reflexivity.
  - apply float_eqb_finite in E. subst y.
    unfold sub, SFsub. rewrite Z.sub_diag. reflexivity.
Qed.

(** Adding the product of a real gain and [0.0] changes nothing. *)
Lemma float_add_gain_times_zero (x k : float) :
  real k -> same (x + k * zero)%py x = true.
Proof.
  intros R.
  assert (Z : exists s, (k * zero)%py = S754_zero s).
  { destruct k as [s | s | | s m e]; try discriminate R; eexists; reflexivity. }
  destruct Z as [s ->].
  destruct x as [sx | sx | | sx m e].
  - destruct sx, s; reflexivity.
  - destruct sx; reflexivity.
  - reflexivity.
  - change (S754_finite sx m e + S754_zero s)%py with (S754_finite sx m e).
    apply float_same_refl.
Qed.

(** With zero errors and real gains every term of the control law is a
    zero. *)
Lemma float_zero_law (k_p k_d e d : float) :
  real k_p -> real k_d -> (e == zero)%py = true -> (d == zero)%py = true ->
  ((k_p * e + k_d * d) == zero)%py = true.
Proof.
  rewrite !float_eqb_zero. intros Rp Rd He Hd.
  destruct e as [se | | | ]; try discriminate He.
  destruct d as [sd | | | ]; try discriminate Hd.
  destruct k_p as [s1 | | | s1 m1 e1]; try discriminate Rp;
    destruct k_d as [s2 | | | s2 m2 e2]; try discriminate Rd;
    destruct s1, s2, se, sd; reflexivity.
Qed.

Lemma float_zero_derivative (e last step : float) :
  (e == zero)%py = true -> (last == zero)%py = true ->
  real step -> (step == zero)%py = false ->
  (div (e - last) step == zero)%py = true.
Proof.
  rewrite !float_eqb_zero. intros He Hl R Hs.
  destruct e as [se | | | ]; try discriminate He.
  destruct last as [sl | | | ]; try discriminate Hl.
  destruct step as [ | | | ss ms es]; try discriminate R; try discriminate Hs.
  destruct se, sl, ss; reflexivity.
Qed.

(** ** How the methods run *)

(** [control] by cases on the stored error and on the timestep: the division
    is the only step that can raise, and it comes before the assignment. *)
Lemma control_cases (reference observation : float) (self : PDController) :
  control reference observation self =
  let error := error_of reference observation in
  match _last_error self with
  | None =>
      (Return (kp self * error + kd self * zero)%py,
       snd (set_last_error (Some error) self))
  | Some last =>
      if (dt self == zero)%py
      then (Raise ZeroDivisionError, self)
      else (Return (kp self * error + kd self * div (error - last) (dt self))%py,
            snd (set_last_error (Some error) self))
  end.
Proof.
  unfold control, bind, get, error_of. simpl.
  destruct (_last_error self) as [last | ]; simpl; [ | reflexivity ].
  unfold truediv. destruct (dt self == zero)%py; reflexivity.
Qed.

Lemma control_raises_only_with_history
  (reference observation : float) (self : PDController) (e : exn) :
  fst (control reference observation self) = Raise e ->
  (dt self == zero)%py = true /\ _last_error self <> None.
Proof.
  rewrite control_cases. simpl.
  destruct (_last_error self) as [last | ]; [ | discriminate ].
  destruct (dt self == zero)%py; [ | discriminate ].
  intros _. split; [ reflexivity | discriminate ].
Qed.

Lemma control_returns (reference observation : float) (self : PDController) :
  (dt self == zero)%py = false ->
  returned (fst (control reference observation self)) = true.
Proof.
  intros Hdt. rewrite control_cases. simpl.
  destruct (_last_error self); [ rewrite Hdt | ]; reflexivity.
Qed.

Lemma control_stores_error (reference observation : float) (self : PDController) :
  returned (fst (control reference observation self)) = true ->
  _last_error (snd (control reference observation self))
  = Some (error_of reference observation).
Proof.
  rewrite control_cases. simpl.
  destruct (_last_error self); [ destruct (dt self == zero)%py | ];
    simpl; intros H; try discriminate H; reflexivity.
Qed.

Lemma control_keeps_history (reference observation : float) (self : PDController) :
  _last_error (snd (control reference observation self)) <> None.
Proof.
  rewrite control_cases. simpl.
  destruct (_last_error self) eqn:L; [ destruct (dt self == zero)%py | ];
    simpl; congruence.
Qed.

Lemma control_frame (reference observation : float) (self : PDController) :
  let self' := snd (control reference observation self) in
  kp self' = kp self /\ kd self' = kd self /\ dt self' = dt self.
Proof.
  rewrite control_cases. simpl.
  destruct (_last_error self); [ destruct (dt self == zero)%py | ];
    simpl; auto.
Qed.

Lemma invoke_control (reference observation : float) (self : PDController) :
  invoke (Control reference observation) self =
  (match fst (control reference observation self) with
   | Return u => Return (VFloat u)
   | Raise e => Raise e
   end,
   snd (control reference observation self)).
Proof.
  unfold invoke, bind, ret.
  destruct (control reference observation self) as [[u | e] self']; reflexivity.
Qed.

Lemma invoke_reset (self : PDController) :
  invoke Reset self = (Return VNone, snd (reset self)).
Proof. reflexivity. Qed.

Lemma invoke_frame (c : call) (self : PDController) :
  let self' := snd (invoke c self) in
  kp self' = kp self /\ kd self' = kd self /\ dt self' = dt self.
Proof.
  destruct c as [reference observation | ].
  - rewrite invoke_control. apply control_frame.
  - simpl. auto.
Qed.

Lemma outcomes_cons (c : call) (rest : list call) (self : PDController) :
  outcomes (c :: rest) self
  = fst (invoke c self) :: outcomes rest (snd (invoke c self)).
Proof.
  unfold outcomes. simpl.
  destruct (invoke c self) as [r self']. simpl.
  destruct (drive rest self') as [rs final]. reflexivity.
Qed.

Lemma after_cons (c : call) (rest : list call) (self : PDController) :
  after (c :: rest) self = after rest (snd (invoke c self)).
Proof.
  unfold after. simpl.
  destruct (invoke c self) as [r self']. simpl.
  destruct (drive rest self') as [rs final]. reflexivity.
Qed.

Lemma after_app (first second : list call) (self : PDController) :
  after (first ++ second) self = after second (after first self).
Proof.
  revert self. induction first as [ | c first IH]; intros self.
  - reflexivity.
  - simpl. rewrite !after_cons. apply IH.
Qed.

Lemma after_frame (calls : list call) (self : PDController) :
  kp (after calls self) = kp self /\
  kd (after calls self) = kd self /\
  dt (after calls self) = dt self.
Proof.
  revert self. induction calls as [ | c calls IH]; intros self.
  - unfold after. simpl. auto.
  - rewrite after_cons.
    destruct (IH (snd (invoke c self))) as (Hp & Hd & Ht).
    destruct (invoke_frame c self) as (Hp' & Hd' & Ht').
    repeat split; congruence.
Qed.

Lemma after_single (c : call) (self : PDController) :
  after [c] self = snd (invoke c self).
Proof. rewrite after_cons. reflexivity. Qed.

Lemma fresh_has_no_history (k_p k_d step : float) :
  _last_error (__init__ k_p k_d step) = None.
Proof. reflexivity. Qed.

Lemma reset_clears_history (self : PDController) :
  _last_error (snd (reset self)) = None.
Proof. reflexivity. Qed.

Lemma reset_returns (self : PDController) : fst (reset self) = Return tt.
Proof. reflexivity. Qed.

(** A call at the setpoint on a settled controller with real gains and a
    real non-zero timestep returns a zero and leaves the controller
    settled. *)
Lemma settled_step (c : call) (self : PDController) :
  real (kp self) -> real (kd self) ->
  real (dt self) -> (dt self == zero)%py = false ->
  settled self -> at_setpoint c ->
  returns_zero (fst (invoke c self)) /\ settled (snd (invoke c self)).
Proof.
  intros Rp Rd Rt Hdt Hs Hc.
  destruct c as [reference observation | ]; [ | simpl; auto ].
  destruct Hc as [Rr Heq].
  pose proof (float_sub_eq_zero _ Rr Heq) as He. fold (error_of reference observation) in He.
  rewrite invoke_control, control_cases. unfold settled in *. simpl.
  destruct (_last_error self) as [last | ]; simpl.
  - rewrite Hdt. simpl. split; [ | exact He ].
    apply float_zero_law; auto. apply float_zero_derivative; auto.
  - split; [ | exact He ].
    apply float_zero_law; auto.
Qed.

(** ** The properties of the specification *)

(** C1. On a controller without history (freshly constructed, or just after
    [reset()]) whose derivative gain is a real number, [control(reference,
    observation)] returns, for all floats [reference] and [observation], the
    number [kp * (reference - observation)]: the derivative term is zero. *)
Theorem first_call_is_proportional
  (self : PDController) (reference observation : float) :
  _last_error self = None ->
  real (kd self) ->
  exists u,
    fst (control reference observation self) = Return u /\
    same u (kp self * (reference - observation))%py = true.
Proof.
  intros Hnone Rd. rewrite control_cases, Hnone. simpl.
  eexists. split; [ reflexivity | ].
  apply float_add_gain_times_zero. exact Rd.
Qed.

Lemma first_call_is_proportional_witness :
  exists u,
    fst (control f10 zero (__init__ default_kp default_kd default_dt))
    = Return u /\
    same u (default_kp * (f10 - zero))%py = true.
Proof.
  apply first_call_is_proportional; reflexivity.
Defined.

(** C2. On a controller whose timestep is not zero, of two successive
    [control] calls with errors [e1] and then [e2], the second returns
    [kp*e2 + kd*((e2 - e1)/dt)]. *)
Theorem second_call_follows_formula
  (self : PDController) (reference1 observation1 reference2 observation2 : float) :
  (dt self == zero)%py = false ->
  let e1 := error_of reference1 observation1 in
  let e2 := error_of reference2 observation2 in
  fst (control reference2 observation2
         (snd (control reference1 observation1 self)))
  = Return (kp self * e2 + kd self * div (e2 - e1) (dt self))%py.
Proof.
  intros Hdt e1 e2.
  pose proof (control_stores_error reference1 observation1 self
                (control_returns reference1 observation1 self Hdt)) as Hlast.
  destruct (control_frame reference1 observation1 self) as (Hp & Hd & Ht).
  rewrite (control_cases reference2 observation2), Hlast, Hp, Hd, Ht, Hdt.
  reflexivity.
Qed.

Lemma second_call_follows_formula_witness :
  fst (control f10 f2
         (snd (control f10 zero (__init__ default_kp default_kd default_dt))))
  = Return (default_kp * error_of f10 f2
            + default_kd * div (error_of f10 f2 - error_of f10 zero) default_dt)%py.
Proof.
  apply (second_call_follows_formula
           (__init__ default_kp default_kd default_dt) f10 zero f10 f2).
  reflexivity.
Defined.

(** C3, as stated, fails: with a zero timestep and a stored error the call
    does not complete normally. *)
Lemma zero_timestep_call_does_not_return :
  ~ (forall (self : PDController) (reference observation : float),
        (dt self == zero)%py = true ->
        _last_error self <> None ->
        returned (fst (control reference observation self)) = true).
Proof.
  intros H. specialize (H stalled f10 f2).
  assert (E : fst (control f10 f2 stalled) = Raise ZeroDivisionError)
    by (vm_compute; reflexivity).
  rewrite E in H. simpl in H.
  assert (false = true) as F; [ | discriminate F ].
  apply H; [ vm_compute; reflexivity | vm_compute; discriminate ].
Qed.

(** C3, amended. When the timestep is zero (either zero) and the controller
    holds a previous error, [control] returns no value: the division raises
    [ZeroDivisionError]. *)
Theorem zero_timestep_call_raises
  (self : PDController) (reference observation : float) :
  (dt self == zero)%py = true ->
  _last_error self <> None ->
  fst (control reference observation self) = Raise ZeroDivisionError.
Proof.
  intros Hdt Hsome. rewrite control_cases. simpl.
  destruct (_last_error self); [ | congruence ].
  rewrite Hdt. reflexivity.
Qed.

Lemma zero_timestep_call_raises_witness :
  fst (control f10 f2 stalled) = Raise ZeroDivisionError.
Proof.
  apply zero_timestep_call_raises;
    [ vm_compute; reflexivity | vm_compute; discriminate ].
Defined.

(** C4, as stated, fails: a [control] call stopped by the division leaves
    the error of the call before it in [_last_error], not its own. *)
Lemma failed_call_keeps_previous_error :
  ~ (forall (k_p k_d step : float) (before : list call)
            (reference observation : float),
        _last_error (after (before ++ [Control reference observation])
                           (__init__ k_p k_d step))
        = Some (error_of reference observation)).
Proof.
  intros H.
  specialize (H default_kp default_kd zero [Control f10 zero] f10 f2).
  vm_compute in H. discriminate H.
Qed.

(** C4, amended. Over all sequences of calls on a constructed controller:
    [_last_error] is absent exactly when no [control] call was made since
    construction or since the last [reset()]; after a [control] call that
    returns it holds that call's error, first call or not; and every
    [control] call returns when the timestep is not zero. *)
Theorem last_error_invariant (k_p k_d step : float) (calls : list call) :
  let fresh := __init__ k_p k_d step in
  (_last_error (after calls fresh) = None <-> no_call_since_clear calls) /\
  (forall (before : list call) (reference observation : float),
      calls = before ++ [Control reference observation] ->
      returned (fst (control reference observation (after before fresh))) = true ->
      _last_error (after calls fresh) = Some (error_of reference observation)) /\
  ((step == zero)%py = false ->
   forall (before : list call) (reference observation : float),
     calls = before ++ [Control reference observation] ->
     _last_error (after calls fresh) = Some (error_of reference observation)).
Proof.
  intros fresh.
  assert (Stored : forall before reference observation,
             calls = before ++ [Control reference observation] ->
             returned (fst (control reference observation (after before fresh))) = true ->
             _last_error (after calls fresh) = Some (error_of reference observation)).
  { intros before reference observation -> Hret.
    rewrite after_app, after_single, invoke_control. simpl.
    now apply control_stores_error. }
  split; [ | split; [ exact Stored | ] ].
  - destruct calls as [ | c before _] using rev_ind.
    + split; [ intros _; now left | reflexivity ].
    + rewrite after_app, after_single.
      destruct c as [reference observation | ].
      * rewrite invoke_control. simpl. split.
        -- intros Hnone.
           now apply control_keeps_history in Hnone.
        -- intros [Hnil | [before' Hsnoc]].
           ++ now destruct before.
           ++ apply app_inj_tail in Hsnoc. destruct Hsnoc as [_ Hc].
              discriminate Hc.
      * split; [ intros _; right; now exists before | reflexivity ].
  - intros Hstep before reference observation Hcalls.
    apply (Stored before); [ exact Hcalls | ].
    apply control_returns.
    destruct (after_frame before fresh) as (_ & _ & Ht).
    rewrite Ht. exact Hstep.
Qed.

(** C5. After any sequence of calls, [reset()] followed by [control] with
    error [e] returns what a freshly constructed controller with the same
    gains and timestep returns on its first call with that error, which is
    the number [kp * e] when the derivative gain is a real number. *)
Theorem reset_rearms_first_call
  (self : PDController) (calls : list call) (reference observation : float) :
  real (kd self) ->
  let rearmed := snd (reset (after calls self)) in
  let fresh := __init__ (kp self) (kd self) (dt self) in
  fst (control reference observation rearmed)
  = fst (control reference observation fresh) /\
  exists u,
    fst (control reference observation rearmed) = Return u /\
    same u (kp self * error_of reference observation)%py = true.
Proof.
  intros Rd rearmed fresh.
  destruct (after_frame calls self) as (Hp & Hd & Ht).
  assert (E : rearmed = fresh).
  { unfold rearmed, fresh, reset, set_last_error, __init__. simpl.
    now rewrite Hp, Hd, Ht. }
  rewrite E. split; [ reflexivity | ].
  rewrite control_cases. simpl.
  eexists. split; [ reflexivity | ].
  apply float_add_gain_times_zero. exact Rd.
Qed.

Lemma reset_rearms_first_call_witness :
  let self := __init__ default_kp default_kd default_dt in
  let rearmed := snd (reset (after [Control f10 zero; Control f10 f2] self)) in
  fst (control f10 f2 rearmed) = fst (control f10 f2 self) /\
  exists u,
    fst (control f10 f2 rearmed) = Return u /\
    same u (default_kp * error_of f10 f2)%py = true.
Proof.
  apply (reset_rearms_first_call
           (__init__ default_kp default_kd default_dt)
           [Control f10 zero; Control f10 f2] f10 f2).
  reflexivity.
Defined.

(** C6. [reset()] is idempotent: two resets in a row leave the controller in
    exactly the state one reset leaves it in, and every later sequence of
    calls has the same outcomes and the same final state. *)
Theorem reset_idempotent (self : PDController) (calls : list call) :
  snd (reset (snd (reset self))) = snd (reset self) /\
  after [Reset; Reset] self = after [Reset] self /\
  outcomes ([Reset; Reset] ++ calls) self
  = Return VNone :: outcomes ([Reset] ++ calls) self /\
  outcomes calls (after [Reset; Reset] self)
  = outcomes calls (after [Reset] self) /\
  after ([Reset; Reset] ++ calls) self = after ([Reset] ++ calls) self.
Proof.
  assert (E : snd (reset (snd (reset self))) = snd (reset self))
    by reflexivity.
  assert (A : after [Reset; Reset] self = after [Reset] self)
    by (rewrite !after_cons, !invoke_reset; cbn [snd]; now rewrite E).
  refine (conj E (conj A (conj _ (conj _ _)))).
  - cbn [app]. rewrite !outcomes_cons, !invoke_reset. cbn [fst snd].
    now rewrite E.
  - now rewrite A.
  - now rewrite !after_app, A.
Qed.

(** C7, as stated, fails: with a zero timestep the second call at the
    setpoint raises instead of returning [0.0], whatever the real gains. *)
Lemma setpoint_call_fails_with_zero_timestep :
  ~ (forall (k_p k_d step : float) (calls : list call),
        real k_p -> real k_d -> real step ->
        Forall at_setpoint calls ->
        Forall returns_zero (outcomes calls (__init__ k_p k_d step))).
Proof.
  intros H.
  specialize (H default_kp default_kd zero [Control f10 f10; Control f10 f10]).
  assert (F : Forall returns_zero
                [Return (VFloat zero); Raise ZeroDivisionError]).
  { apply H; try reflexivity.
    repeat constructor. }
  inversion F as [ | ? ? _ F']. inversion F' as [ | ? ? Bad _]. exact Bad.
Qed.

(** C7, amended. For all real gains and every real timestep other than
    zero, if the reference equals the observation on every [control] call,
    every one of those calls returns a zero, however many calls (and
    resets) came before. *)
Theorem zero_error_fixed_point (k_p k_d step : float) (calls : list call) :
  real k_p -> real k_d ->
  real step -> (step == zero)%py = false ->
  Forall at_setpoint calls ->
  Forall returns_zero (outcomes calls (__init__ k_p k_d step)).
Proof.
  intros Rp Rd Rt Hstep Hcalls.
  assert (G : forall self,
             kp self = k_p -> kd self = k_d -> dt self = step ->
             settled self -> Forall returns_zero (outcomes calls self)).
  { induction Hcalls as [ | c rest Hc _ IH]; intros self Ep Ed Et Hs.
    - constructor.
    - rewrite outcomes_cons.
      destruct (settled_step c self) as [Hzero Hs']; try congruence.
      destruct (invoke_frame c self) as (Hp & Hd & Ht).
      constructor; [ exact Hzero | ].
      apply IH; congruence. }
  apply G; [ reflexivity | reflexivity | reflexivity | exact I ].
Qed.

Lemma zero_error_fixed_point_witness :
  Forall returns_zero
    (outcomes [Control f10 f10; Control f2 f2; Reset; Control f8 f8]
              (__init__ default_kp default_kd default_dt)).
Proof.
  apply zero_error_fixed_point; try reflexivity.
  repeat constructor.
Defined.

(** C8. On a controller whose timestep is not zero, [control] returns for
    all floats [reference] and [observation] (finite or not), [reset]
    returns, and no call of any sequence of calls raises. *)
Theorem no_runtime_error
  (self : PDController) (reference observation : float) (calls : list call) :
  (dt self == zero)%py = false ->
  returned (fst (control reference observation self)) = true /\
  returned (fst (reset self)) = true /\
  Forall (fun r => returned r = true) (outcomes calls self).
Proof.
  intros Hdt.
  split; [ now apply control_returns | split; [ reflexivity | ] ].
  revert self Hdt. induction calls as [ | c calls IH]; intros self Hdt.
  - constructor.
  - rewrite outcomes_cons. constructor.
    + destruct c as [r o | ]; [ | reflexivity ].
      rewrite invoke_control. simpl.
      pose proof (control_returns r o self Hdt) as Hret.
      destruct (fst (control r o self)); [ reflexivity | discriminate Hret ].
    + apply IH. destruct (invoke_frame c self) as (_ & _ & Ht).
      rewrite Ht. exact Hdt.
Qed.

Lemma no_runtime_error_witness :
  let self := __init__ default_kp default_kd default_dt in
  returned (fst (control huge neg_huge self)) = true /\
  returned (fst (reset self)) = true /\
  Forall (fun r => returned r = true)
         (outcomes [Control huge neg_huge; Control f10 f2; Reset;
                    Control neg_huge huge] self).
Proof.
  apply (no_runtime_error (__init__ default_kp default_kd default_dt)).
  reflexivity.
Defined.

(** C9. Neither [control] nor [reset] changes [kp], [kd] or [dt], whether
    the call returns or raises; so no sequence of calls does: the only field
    either method writes is [_last_error]. *)
Theorem gains_and_timestep_are_fixed
  (self : PDController) (reference observation : float) (calls : list call) :
  (let self' := snd (control reference observation self) in
   kp self' = kp self /\ kd self' = kd self /\ dt self' = dt self) /\
  (let self' := snd (reset self) in
   kp self' = kp self /\ kd self' = kd self /\ dt self' = dt self) /\
  (let self' := after calls self in
   kp self' = kp self /\ kd self' = kd self /\ dt self' = dt self).
Proof.
  split; [ apply control_frame | split ].
  - simpl. auto.
  - apply after_frame.
Qed.

(** C10. A [control] call that raises leaves the controller exactly as it
    was: the division comes before the assignment to [_last_error], which
    still holds the error of the call before. *)
Theorem failed_call_leaves_state
  (self : PDController) (reference observation : float) (e : exn) :
  fst (control reference observation self) = Raise e ->
  snd (control reference observation self) = self.
Proof.
  rewrite control_cases. simpl.
  destruct (_last_error self); [ destruct (dt self == zero)%py | ];
    simpl; intros H; try discriminate H; reflexivity.
Qed.

Lemma failed_call_leaves_state_witness :
  snd (control f10 f2 stalled) = stalled /\
  _last_error stalled = Some (error_of f10 zero).
Proof.
  split.
  - apply (failed_call_leaves_state stalled f10 f2 (e := ZeroDivisionError)).
    vm_compute. reflexivity.
  - vm_compute. reflexivity.
Defined.

(** ** The scenarios of the specification, run on the model *)

Example scenario_first_call :
  outcomes [Control f10 zero] (__init__ default_kp default_kd default_dt)
  = [Return (VFloat (of_ratio 15 10))].
Proof. vm_compute. reflexivity. Qed.

Example scenario_second_call :
  outcomes [Control f10 zero; Control f10 f2]
           (__init__ default_kp default_kd default_dt)
  = [Return (VFloat (of_ratio 15 10)); Return (VFloat zero)].
Proof. vm_compute. reflexivity. Qed.

Example scenario_with_reset :
  outcomes [Control f10 zero; Control f10 f2; Reset; Control f10 f2]
           (__init__ default_kp default_kd default_dt)
  = [Return (VFloat (of_ratio 15 10)); Return (VFloat zero);
     Return VNone; Return (VFloat (of_ratio 12 10))].
Proof. vm_compute. reflexivity. Qed.

Example scenario_zero_timestep :
  outcomes [Control f10 zero; Control f10 f2]
           (__init__ default_kp default_kd zero)
  = [Return (VFloat (of_ratio 15 10)); Raise ZeroDivisionError].
Proof. vm_compute. reflexivity. Qed.

(** The sample values are well-formed binary64 numbers. *)
Example samples_are_binary64 :
  forallb (valid_binary prec emax)
    [default_kp; default_kd; default_dt; zero; neg_one; f2; f8; f10;
     huge; neg_huge; inf; nan] = true.
Proof. vm_compute. reflexivity. Qed.

(** Why the returned action is compared as a number ([same]) and the
    derivative gain is taken real: the sum with the zero derivative term
    loses the sign of a negative zero, and an infinite gain times [0.0] is
    NaN. *)
Example first_call_sign_of_zero :
  fst (control f10 f10 (__init__ neg_one default_kd default_dt)) = Return zero
  /\ (neg_one * (f10 - f10))%py = neg_zero.
Proof. split; vm_compute; reflexivity. Qed.

Example first_call_infinite_gain :
  fst (control f10 zero (__init__ default_kp inf default_dt)) = Return nan.
Proof. vm_compute. reflexivity. Qed.

(** Overflow of the error is not an exception: the action is infinite. *)
Example overflow_is_not_an_error :
  outcomes [Control huge neg_huge] (__init__ default_kp default_kd default_dt)
  = [Return (VFloat inf)].
Proof. vm_compute. reflexivity. Qed.

(** ** Further properties of the controller *)

Lemma controller_ext (a b : PDController) :
  kp a = kp b -> kd a = kd b -> dt a = dt b ->
  _last_error a = _last_error b -> a = b.
Proof. destruct a, b. simpl. intros. subst. reflexivity. Qed.



Lemma float_nan_law (k_p k_d e d : float) :
  isnan e = true -> (k_p * e + k_d * d)%py = nan.
Proof.
  destruct e; try discriminate. intros _.
  destruct k_p; reflexivity.
Qed.

Lemma float_nan_derivative_law (k_p k_d e last step : float) :
  isnan last = true -> (k_p * e + k_d * div (e - last) step)%py = nan.
Proof.
  destruct last; try discriminate. intros _.
  assert (D : div (e - S754_nan)%py step = nan) by (destruct e; reflexivity).
  rewrite D.
  assert (K : (k_d * nan)%py = nan) by (destruct k_d; reflexivity).
  rewrite K. destruct (k_p * e)%py; reflexivity.
Qed.

(** X1. [reset()] after any sequence of calls leaves exactly the object that
    [__init__] builds from the same gains and timestep, so every later
    sequence of calls has the outcomes it has on a new controller. *)
Theorem reset_is_reconstruction
  (self : PDController) (calls later : list call) :
  after (calls ++ [Reset]) self = __init__ (kp self) (kd self) (dt self) /\
  outcomes later (after (calls ++ [Reset]) self)
  = outcomes later (__init__ (kp self) (kd self) (dt self)).
Proof.
  assert (E : after (calls ++ [Reset]) self
              = __init__ (kp self) (kd self) (dt self)).
  { rewrite after_app, after_single, invoke_reset. cbn [snd].
    destruct (after_frame calls self) as (Hp & Hd & Ht).
    apply controller_ext; simpl; auto. }
  split; [ exact E | now rewrite E ].
Qed.

(** X2. The controller remembers one call only: when the timestep is not zero,
    the object after a [control] call is the one before the whole sequence
    with that call's error stored, whatever came earlier; two histories that
    end with the same call give the same outcomes from then on. *)
Theorem memory_is_one_call
  (self : PDController) (calls other later : list call)
  (reference observation : float) :
  (dt self == zero)%py = false ->
  after (calls ++ [Control reference observation]) self
  = snd (set_last_error (Some (error_of reference observation)) self) /\
  outcomes later (after (calls ++ [Control reference observation]) self)
  = outcomes later (after (other ++ [Control reference observation]) self).
Proof.
  intros Hdt.
  assert (E : forall history,
             after (history ++ [Control reference observation]) self
             = snd (set_last_error (Some (error_of reference observation)) self)).
  { intros history. rewrite after_app, after_single, invoke_control. cbn [snd].
    destruct (after_frame history self) as (Hp & Hd & Ht).
    destruct (control_frame reference observation (after history self))
      as (Hp' & Hd' & Ht').
    apply controller_ext; simpl; try congruence.
    apply control_stores_error, control_returns. now rewrite Ht. }
  split; [ apply E | now rewrite !E ].
Qed.

Lemma memory_is_one_call_witness :
  let self := __init__ default_kp default_kd default_dt in
  after ([Control f10 zero; Reset; Control f2 f8] ++ [Control f10 f2]) self
  = snd (set_last_error (Some (error_of f10 f2)) self) /\
  outcomes [Control f10 f8]
    (after ([Control f10 zero; Reset; Control f2 f8] ++ [Control f10 f2]) self)
  = outcomes [Control f10 f8] (after ([] ++ [Control f10 f2]) self).
Proof.
  apply (memory_is_one_call
           (__init__ default_kp default_kd default_dt)
           [Control f10 zero; Reset; Control f2 f8] [] [Control f10 f8]
           f10 f2).
  reflexivity.
Defined.

(** X3. [control] raises exactly when the timestep compares equal to zero and an
    error is stored; the gains and the arguments play no part, and the only
    exception is [ZeroDivisionError]. *)
Theorem control_raises_iff
  (self : PDController) (reference observation : float) :
  (returned (fst (control reference observation self)) = false <->
   (dt self == zero)%py = true /\ _last_error self <> None) /\
  (returned (fst (control reference observation self)) = false ->
   fst (control reference observation self) = Raise ZeroDivisionError).
Proof.
  rewrite control_cases. simpl.
  destruct (_last_error self) as [last | ]; simpl.
  - destruct (dt self == zero)%py; simpl; split; try split; intros;
      try reflexivity; try discriminate; try (split; congruence).
    destruct H; discriminate.
  - split; [ split | ]; intros H; try discriminate H.
    destruct H as [_ H]. congruence.
Qed.

(** X4. Once a [control] call has raised, every further [control] call raises as
    well and the object never changes, whatever the arguments; only
    [reset()] recovers, and the [control] call after it returns. *)
Theorem failure_persists_until_reset
  (self : PDController) (reference observation : float) (e : exn)
  (calls : list call) (reference' observation' : float) :
  fst (control reference observation self) = Raise e ->
  Forall is_control calls ->
  Forall (fun r => r = Raise ZeroDivisionError) (outcomes calls self) /\
  after calls self = self /\
  returned (fst (control reference' observation'
                   (after (calls ++ [Reset]) self))) = true.
Proof.
  intros Hraise Hcalls.
  apply control_raises_only_with_history in Hraise.
  destruct Hraise as [Hdt Hsome].
  assert (Step : forall r o,
             invoke (Control r o) self = (Raise ZeroDivisionError, self)).
  { intros r o. rewrite invoke_control, control_cases. simpl.
    destruct (_last_error self); [ | congruence ].
    rewrite Hdt. reflexivity. }
  assert (Stuck : Forall (fun r => r = Raise ZeroDivisionError)
                         (outcomes calls self) /\ after calls self = self).
  { induction Hcalls as [ | c rest Hc _ IH].
    - split; [ constructor | reflexivity ].
    - destruct c as [r o | ]; [ | destruct Hc ].
      rewrite outcomes_cons, after_cons, Step. cbn [fst snd].
      destruct IH as [IHo IHa]. split; [ constructor; auto | exact IHa ]. }
  destruct Stuck as [Ho Ha].
  split; [ exact Ho | split; [ exact Ha | ] ].
  rewrite after_app, after_single, invoke_reset, Ha. cbn [snd].
  rewrite control_cases. reflexivity.
Qed.

Lemma failure_persists_until_reset_witness :
  Forall (fun r => r = Raise ZeroDivisionError)
         (outcomes [Control f2 f8; Control zero zero] stalled) /\
  after [Control f2 f8; Control zero zero] stalled = stalled /\
  returned (fst (control f10 f2
                   (after ([Control f2 f8; Control zero zero] ++ [Reset])
                          stalled))) = true.
Proof.
  apply (failure_persists_until_reset stalled f10 f2
           (e := ZeroDivisionError)).
  - vm_compute. reflexivity.
  - repeat constructor.
Defined.





(** X6. A call whose error is NaN (a NaN reference or observation, or the
    difference of equal infinities) returns NaN, and so does the call after
    it whatever its arguments, since the NaN is the stored error; the
    timestep is not zero, so neither call raises. *)
Theorem nan_error_poisons_two_actions
  (self : PDController) (reference observation reference' observation' : float) :
  (dt self == zero)%py = false ->
  isnan (error_of reference observation) = true ->
  fst (control reference observation self) = Return nan /\
  fst (control reference' observation'
         (snd (control reference observation self))) = Return nan.
Proof.
  intros Hdt Hnan.
  pose proof (control_stores_error reference observation self
                (control_returns reference observation self Hdt)) as Hlast.
  destruct (control_frame reference observation self) as (Hp & Hd & Ht).
  split.
  - rewrite control_cases. cbn zeta.
    destruct (_last_error self); [ rewrite Hdt | ]; simpl;
      now rewrite float_nan_law.
  - rewrite (control_cases reference' observation'), Hlast, Ht, Hdt.
    cbn zeta. now rewrite float_nan_derivative_law.
Qed.

Lemma nan_error_poisons_two_actions_witness :
  let self := __init__ default_kp default_kd default_dt in
  fst (control f10 nan self) = Return nan /\
  fst (control f10 f2 (snd (control f10 nan self))) = Return nan.
Proof.
  apply (nan_error_poisons_two_actions
           (__init__ default_kp default_kd default_dt) f10 nan f10 f2);
    reflexivity.
Defined.

(** ** Reversing the sign of the error *)

Lemma round_aux_opp (s : bool) (m e : Z) (l : location) :
  binary_round_aux prec emax (negb s) m e l
  = opp (binary_round_aux prec emax s m e l).
Proof.
  unfold binary_round_aux.
  destruct (shr_fexp prec emax m e l) as [mrs' e'].
  destruct (shr_fexp prec emax _ e' loc_Exact) as [mrs'' e''].
  destruct (shr_m mrs''); [ reflexivity | | reflexivity ].
  destruct (Z.leb e'' (Z.sub emax prec)); reflexivity.
Qed.

Lemma round_opp (s : bool) (m : positive) (e : Z) :
  binary_round prec emax (negb s) m e = opp (binary_round prec emax s m e).
Proof.
  unfold binary_round.
  destruct (shl_align m e _) as [mz ez]. apply round_aux_opp.
Qed.

Lemma normalize_opp (m e : Z) :
  mirrored (binary_normalize prec emax m e false)
           (binary_normalize prec emax (Z.opp m) e false).
Proof.
  destruct m as [ | p | p]; simpl.
  - right. split; reflexivity.
  - left. apply (round_opp false).
  - left. rewrite (round_opp false). unfold opp.
    now destruct (binary_round prec emax false p e) as [[] | [] | | [] ? ?].
Qed.

Lemma cond_Zopp_negb (s : bool) (z : Z) :
  cond_Zopp (negb s) z = Z.opp (cond_Zopp s z).
Proof. destruct s; simpl; [ now rewrite Z.opp_involutive | reflexivity ]. Qed.

Lemma mirrored_zeros (s s' : bool) : mirrored (S754_zero s) (S754_zero s').
Proof. right. split; reflexivity. Qed.

Lemma mirrored_opp (x : float) : mirrored x (opp x).
Proof. now left. Qed.

Lemma opp_involutive (x : float) : opp (opp x) = x.
Proof. destruct x as [[] | [] | | [] ? ?]; reflexivity. Qed.

Ltac mirrored_by_cases :=
  unfold sub, add, mul, div, opp; simpl;
  first [ left; reflexivity | right; split; reflexivity ].

Lemma sub_swap (x y : float) : mirrored (x - y)%py (y - x)%py.
Proof.
  destruct x as [sx | sx | | sx mx ex], y as [sy | sy | | sy my ey];
    try mirrored_by_cases;
    try (destruct sx; mirrored_by_cases);
    try (destruct sy; mirrored_by_cases);
    try (destruct sx, sy; mirrored_by_cases).
  unfold sub, SFsub. rewrite (Z.min_comm ey ex).
  match goal with
  | |- mirrored (binary_normalize _ _ (Z.sub ?a ?b) _ _) _ =>
      replace (Z.sub b a) with (Z.opp (Z.sub a b))
        by (rewrite Z.opp_sub_distr; apply Z.add_opp_l)
  end.
  apply normalize_opp.
Qed.

Lemma sub_opp_opp (x y : float) : mirrored (x - y)%py (opp x - opp y)%py.
Proof.
  destruct x as [sx | sx | | sx mx ex], y as [sy | sy | | sy my ey];
    try mirrored_by_cases;
    try (destruct sx; mirrored_by_cases);
    try (destruct sy; mirrored_by_cases);
    try (destruct sx, sy; mirrored_by_cases).
  unfold sub, opp, SFsub, SFopp. rewrite !cond_Zopp_negb.
  match goal with
  | |- mirrored (binary_normalize _ _ (Z.sub ?a ?b) _ _) _ =>
      replace (Z.sub (Z.opp a) (Z.opp b)) with (Z.opp (Z.sub a b))
        by (rewrite Z.opp_sub_distr, Z.sub_opp_r; reflexivity)
  end.
  apply normalize_opp.
Qed.

Lemma add_opp_opp (x y : float) : mirrored (x + y)%py (opp x + opp y)%py.
Proof.
  destruct x as [sx | sx | | sx mx ex], y as [sy | sy | | sy my ey];
    try mirrored_by_cases;
    try (destruct sx; mirrored_by_cases);
    try (destruct sy; mirrored_by_cases);
    try (destruct sx, sy; mirrored_by_cases).
  unfold add, opp, SFadd, SFopp. rewrite !cond_Zopp_negb.
  rewrite <- Z.opp_add_distr.
  apply normalize_opp.
Qed.

Lemma mul_opp_r (k x : float) : (k * opp x)%py = opp (k * x)%py.
Proof.
  destruct k as [sk | sk | | sk mk ek], x as [sx | sx | | sx mx ex];
    try reflexivity;
    try (destruct sk; reflexivity);
    try (destruct sx; reflexivity);
    try (destruct sk, sx; reflexivity).
  change (opp (S754_finite sx mx ex)) with (S754_finite (negb sx) mx ex).
  unfold mul, SFmul.
  rewrite <- (round_aux_opp (xorb sk sx)).
  now destruct sk, sx.
Qed.

Lemma div_opp_l (x step : float) : div (opp x) step = opp (div x step).
Proof.
  destruct x as [sx | sx | | sx mx ex], step as [ss | ss | | ss ms es];
    try reflexivity;
    try (destruct sx; reflexivity);
    try (destruct ss; reflexivity);
    try (destruct sx, ss; reflexivity).
  change (opp (S754_finite sx mx ex)) with (S754_finite (negb sx) mx ex).
  unfold div, SFdiv.
  destruct (SFdiv_core_binary prec emax (Zpos mx) ex (Zpos ms) es)
    as [[mz ez] lz].
  rewrite <- (round_aux_opp (xorb sx ss)).
  now destruct sx, ss.
Qed.

Lemma mirrored_zero_inv (x : float) :
  (x == zero)%py = true -> exists s, x = S754_zero s.
Proof.
  rewrite float_eqb_zero. destruct x; try discriminate. now eexists.
Qed.

Lemma sub_mirrored (a a' b b' : float) :
  mirrored a a' -> mirrored b b' -> mirrored (a - b)%py (a' - b')%py.
Proof.
  intros [-> | [Za Za']] [-> | [Zb Zb']].
  - apply sub_opp_opp.
  - apply mirrored_zero_inv in Zb, Zb'.
    destruct Zb as [s ->], Zb' as [s' ->].
    destruct a as [[] | [] | | [] ? ?], s, s'; mirrored_by_cases.
  - apply mirrored_zero_inv in Za, Za'.
    destruct Za as [s ->], Za' as [s' ->].
    destruct b as [[] | [] | | [] ? ?], s, s'; mirrored_by_cases.
  - apply mirrored_zero_inv in Za, Za', Zb, Zb'.
    destruct Za as [s1 ->], Za' as [s2 ->], Zb as [s3 ->], Zb' as [s4 ->].
    destruct s1, s2, s3, s4; mirrored_by_cases.
Qed.

Lemma add_mirrored (a a' b b' : float) :
  mirrored a a' -> mirrored b b' -> mirrored (a + b)%py (a' + b')%py.
Proof.
  intros [-> | [Za Za']] [-> | [Zb Zb']].
  - apply add_opp_opp.
  - apply mirrored_zero_inv in Zb, Zb'.
    destruct Zb as [s ->], Zb' as [s' ->].
    destruct a as [[] | [] | | [] ? ?], s, s'; mirrored_by_cases.
  - apply mirrored_zero_inv in Za, Za'.
    destruct Za as [s ->], Za' as [s' ->].
    destruct b as [[] | [] | | [] ? ?], s, s'; mirrored_by_cases.
  - apply mirrored_zero_inv in Za, Za', Zb, Zb'.
    destruct Za as [s1 ->], Za' as [s2 ->], Zb as [s3 ->], Zb' as [s4 ->].
    destruct s1, s2, s3, s4; mirrored_by_cases.
Qed.

Lemma mul_mirrored (k x x' : float) :
  mirrored x x' -> mirrored (k * x)%py (k * x')%py.
Proof.
  intros [-> | [Zx Zx']].
  - left. apply mul_opp_r.
  - apply mirrored_zero_inv in Zx, Zx'.
    destruct Zx as [s ->], Zx' as [s' ->].
    destruct k as [[] | [] | | [] ? ?], s, s'; mirrored_by_cases.
Qed.

Lemma div_mirrored (x x' step : float) :
  mirrored x x' -> mirrored (div x step) (div x' step).
Proof.
  intros [-> | [Zx Zx']].
  - left. apply div_opp_l.
  - apply mirrored_zero_inv in Zx, Zx'.
    destruct Zx as [s ->], Zx' as [s' ->].
    destruct step as [[] | [] | | [] ? ?], s, s'; mirrored_by_cases.
Qed.

Lemma mirrored_same (x y : float) : mirrored x y -> same y (opp x) = true.
Proof.
  intros [-> | [Zx Zy]].
  - apply float_same_refl.
  - apply mirrored_zero_inv in Zx, Zy.
    destruct Zx as [s ->], Zy as [s' ->]. now destruct s, s'.
Qed.

Lemma error_swap (reference observation : float) :
  mirrored (error_of reference observation) (error_of observation reference).
Proof. apply sub_swap. Qed.

(** A call and the exchanged call on mirrored controllers: both raise, or
    both return and the actions are opposite; the controllers stay
    mirrored. *)
Lemma mirrored_step (c : call) (self self' : PDController) :
  mirrored_state self self' ->
  opposite_outcomes (fst (invoke c self)) (fst (invoke (swap c) self')) /\
  mirrored_state (snd (invoke c self)) (snd (invoke (swap c) self')).
Proof.
  intros (Hp & Hd & Ht & Hl).
  destruct c as [reference observation | ].
  - cbn [swap]. rewrite !invoke_control, !control_cases. cbn zeta.
    pose proof (error_swap reference observation) as He.
    rewrite Hp, Hd, Ht.
    destruct (_last_error self) as [last | ] eqn:L,
             (_last_error self') as [last' | ] eqn:L';
      try contradiction.
    + destruct (dt self == zero)%py; cbn [fst snd].
      * split; [ reflexivity | ].
        unfold mirrored_state. rewrite L, L'. auto.
      * split.
        -- apply mirrored_same, add_mirrored;
             [ now apply mul_mirrored | ].
           apply mul_mirrored, div_mirrored. now apply sub_mirrored.
        -- unfold mirrored_state. simpl. auto.
    + cbn [fst snd]. split.
      * apply mirrored_same, add_mirrored; [ now apply mul_mirrored | ].
        apply mul_mirrored, mirrored_zeros.
      * unfold mirrored_state. simpl. auto.
  - simpl. unfold mirrored_state. simpl. auto.
Qed.

(** X7. The control law is odd, exactly, in floating point: exchanging the
    reference and the observation in every call of a sequence started
    without history reverses the sign of every returned action, and the
    same calls raise. *)
Theorem control_is_odd (self : PDController) (calls : list call) :
  _last_error self = None ->
  Forall2 opposite_outcomes
          (outcomes calls self) (outcomes (map swap calls) self).
Proof.
  intros Hnone.
  assert (G : forall a b, mirrored_state a b ->
              Forall2 opposite_outcomes
                      (outcomes calls a) (outcomes (map swap calls) b)).
  { induction calls as [ | c calls IH]; intros a b Hm.
    - constructor.
    - cbn [map]. rewrite !outcomes_cons.
      destruct (mirrored_step c Hm) as [Hout Hm'].
      constructor; [ exact Hout | now apply IH ]. }
  apply G. unfold mirrored_state. rewrite Hnone. auto.
Qed.

Lemma control_is_odd_witness :
  Forall2 opposite_outcomes
    (outcomes [Control f10 zero; Control f10 f2; Reset; Control f2 f8]
              (__init__ default_kp default_kd default_dt))
    (outcomes (map swap [Control f10 zero; Control f10 f2; Reset;
                         Control f2 f8])
              (__init__ default_kp default_kd default_dt)).
Proof.
  apply control_is_odd. reflexivity.
Defined.
